(** * The chat worker: routing, system-prompt injection and relay

    A shallow embedding of [src/index.ts].  The worker exports one
    [fetch] handler (the router) and one helper, [handleChatRequest].
    Both are [async] functions that await their callees one after the
    other, so they are embedded as sequential computations in a small
    monad that records the observable effects (calls to the two bindings
    of the environment, lines written with [console.error]) and carries
    JavaScript exceptions. *)

From Stdlib Require Import String Ascii List Bool ZArith Lia SpecFloat.
Import ListNotations.
Local Open Scope string_scope.
Local Open Scope list_scope.
Local Open Scope Z_scope.

Set Implicit Arguments.
Local Set Warnings "-register-all".

(** ** JavaScript values produced by [JSON.parse] *)

Module JS.

(** A JavaScript number is an IEEE 754 binary64 value. *)
Definition number := spec_float.

(** The values [request.json()] can resolve with.  [JObject members]
    lists the members in the order of the JSON text. *)
Inductive value :=
| JNull
| JBool (b : bool)
| JNumber (n : number)
| JString (s : string)
| JArray (elements : list value)
| JObject (members : list (string * value)).

(** What a completed computation hands back: a value, or a thrown error
    (a rejected promise, once awaited). *)
Inductive error :=
| SyntaxError (message : string)
| TypeError (message : string)
| Failure (message : string).

Inductive outcome (A : Type) :=
| Returned (a : A)
| Thrown (e : error).
Arguments Returned {A} a.
Arguments Thrown {A} e.

(** [JSON.parse] keeps the last of several members with the same key, so
    the own property [key] of the parsed object is its last binding. *)
Fixpoint own_property (key : string) (members : list (string * value))
  : option value :=
  match members with
  | [] => None
  | (k, v) :: rest =>
      match own_property key rest with
      | Some w => Some w
      | None => if String.eqb k key then Some v else None
      end
  end.

(** [v[key]] for a key that no built-in prototype defines and that is
    neither an index nor [length] (the worker reads [messages] and [role]
    only).  [None] is [undefined]; reading a property of [null] throws. *)
Definition get (v : value) (key : string) : outcome (option value) :=
  match v with
  | JNull => Thrown (TypeError "Cannot read properties of null")
  | JObject members => Returned (own_property key members)
  | JBool _ | JNumber _ | JString _ | JArray _ => Returned None
  end.

(** [x === s] for a property read [x] and a string literal [s]. *)
Definition strict_equal_string (x : option value) (s : string) : bool :=
  match x with
  | Some (JString t) => String.eqb t s
  | _ => false
  end.

(** [s.startsWith(p)] *)
Definition startsWith (s p : string) : bool := String.prefix p s.

(** The double quote character, U+0022. *)
Definition dquote : string := String (ascii_of_nat 34) EmptyString.

(** [JSON.stringify] on an object literal whose members are all strings
    that need no escaping, which is the only shape the worker
    serialises. *)
Definition quote (s : string) : string := (dquote ++ s ++ dquote)%string.

Fixpoint stringify_members (members : list (string * string)) : string :=
  match members with
  | [] => ""
  | [(k, v)] => (quote k ++ ":" ++ quote v)%string
  | (k, v) :: rest =>
      (quote k ++ ":" ++ quote v ++ "," ++ stringify_members rest)%string
  end.

Definition JSON_stringify (members : list (string * string)) : string :=
  ("{" ++ stringify_members members ++ "}")%string.

End JS.
Export JS.

(** ** Requests, responses and the environment *)

(** The result of [new URL(request.url)], of which the router reads the
    path only. *)
Record URL := { pathname : string }.

(** An incoming request.  [Request_json] is what [await request.json()]
    yields: the parsed body, or [Thrown] when the body is not JSON. *)
Record Request := {
  Request_url : URL;
  Request_method : string;
  Request_json : outcome value
}.

(** A response body is a text given to the constructor, or a stream whose
    chunks the worker never looks at. *)
Inductive Body :=
| BodyText (text : string)
| BodyStream (chunks : list string).

Record Response := {
  status : Z;
  headers : list (string * string);
  body : Body
}.

Record ResponseInit := {
  init_status : Z;
  init_headers : list (string * string)
}.

Definition has_header (name : string) (hs : list (string * string)) : bool :=
  existsb (fun h => String.eqb (fst h) name) hs.

(** [new Response(text, init)].  As the Fetch standard has it, a string
    body brings its own type, which is added when [init] names none. *)
Definition new_Response (text : string) (init : ResponseInit) : Response :=
  {| status := init_status init;
     headers :=
       if has_header "content-type" (init_headers init)
       then init_headers init
       else init_headers init ++ [("content-type", "text/plain;charset=UTF-8")];
     body := BodyText text |}.

(** The second and third argument of [env.AI.run]. *)
Record AiInputs := {
  messages : value;
  max_tokens : Z
}.

Record AiOptions := {
  returnRawResponse : bool
}.

(** Modelled from the spec: [types.ts], which declares [Env] and
    [ChatMessage], is missing.  The environment holds the two
    collaborators: [ASSETS] accepts the original request and returns a
    response; [AI] accepts a model identifier, a payload and options, and
    returns a response or raises a failure. *)
Record Fetcher := {
  Fetcher_fetch : Request -> outcome Response
}.

Record Ai := {
  Ai_run : string -> AiInputs -> AiOptions -> outcome Response
}.

Record Env := {
  ASSETS : Fetcher;
  AI : Ai
}.

(** Modelled from the spec: a [ChatMessage] is a record with a [role],
    one of system, user and assistant, and a text [content].  TypeScript
    types are structural, so any parsed object with these two members is
    one. *)
Definition is_role (x : option value) : bool :=
  strict_equal_string x "system"
  || strict_equal_string x "user"
  || strict_equal_string x "assistant".

Definition is_text (x : option value) : bool :=
  match x with
  | Some (JString _) => true
  | _ => false
  end.

Definition is_ChatMessage (v : value) : bool :=
  match v with
  | JObject members =>
      is_role (own_property "role" members)
      && is_text (own_property "content" members)
  | _ => false
  end.

(** ** Effects *)

Inductive event :=
| AssetsFetch (request : Request)
| AiRun (model : string) (inputs : AiInputs) (options : AiOptions)
| ConsoleError (label : string) (e : error).

(** A computation is its outcome together with the effects it had, in
    order. *)
Definition Eff (A : Type) : Type := outcome A * list event.

Definition ret {A} (a : A) : Eff A := (Returned a, []).

Definition throw {A} (e : error) : Eff A := (Thrown e, []).

Definition bind {A B} (m : Eff A) (k : A -> Eff B) : Eff B :=
  match m with
  | (Returned a, t) => let (r, t') := k a in (r, t ++ t')
  | (Thrown e, t) => (Thrown e, t)
  end.

(** [try { m } catch (error) { handler error }] *)
Definition try_catch {A} (m : Eff A) (handler : error -> Eff A) : Eff A :=
  match m with
  | (Returned a, t) => (Returned a, t)
  | (Thrown e, t) => let (r, t') := handler e in (r, t ++ t')
  end.

(** Awaiting a promise that has no effect of its own. *)
Definition await {A} (o : outcome A) : Eff A := (o, []).

Declare Scope eff_scope.
Delimit Scope eff_scope with eff.
Notation "x <- m ;; k" := (bind m (fun x => k))
  (at level 100, m at next level, right associativity) : eff_scope.
Notation "m ;;; k" := (bind m (fun _ => k))
  (at level 100, right associativity) : eff_scope.
Local Open Scope eff_scope.

Definition result {A} (m : Eff A) : outcome A := fst m.
Definition trace {A} (m : Eff A) : list event := snd m.

(** [env.ASSETS.fetch(request)] *)
Definition ASSETS_fetch (env : Env) (request : Request) : Eff Response :=
  (Fetcher_fetch (ASSETS env) request, [AssetsFetch request]).

(** [env.AI.run(model, inputs, options)] *)
Definition AI_run (env : Env) (model : string) (inputs : AiInputs)
  (options : AiOptions) : Eff Response :=
  (Ai_run (AI env) model inputs options, [AiRun model inputs options]).

(** [console.error(label, error)] *)
Definition console_error (label : string) (e : error) : Eff unit :=
  (Returned tt, [ConsoleError label e]).

(** ** The worker *)

(** The repository holds a second copy of the worker that differs from
    [src/index.ts] in the two constants below only; the statements about
    the handler hold for either pair, as no proof looks into them. *)

(** Model ID for Workers AI model *)
Definition MODEL_ID : string := "@cf/google/gemma-3-12b-it".

(** Default system prompt.  It is a template literal without
    substitutions: the text between the back quotes, line breaks
    included. *)
Definition SYSTEM_PROMPT : string := "
你是一名高中英语老师，现有一篇英语书信作文需要你批改，你需要对这篇作文评分(满分为15分)并找出文章中所有的拼写错误，用词不当以及语法错误；同时找出文章中的高级词汇，亮点表达；最后，你还需要为该同学提出写作进步的建议。
为了定位，请将文章中的所有错误的开始下标与结束下标返回；对于错误分析，请详细分析语法知识点并给出一定的正例与反例；对于亮点分析，请详细给出亮点的优秀之处。
作文：{essay}
输出格式如下（请严格按照分点和逻辑顺序输出）：

一、评分  
总分（满分15分）：xx分  

二、错误分析  
1. 拼写错误：列出所有拼写错误的词语、正确拼写，并标注在文章中的开始下标与结束下标。例如：“acheive”（应为“achieve”，位置12~19）  
2. 语法错误：详细分析存在的语法问题，说明所涉及的语法知识点，举出正例与反例加以说明  
3. 用词不当：指出不恰当的用词并解释原因，提供更合适的替代表达  

三、亮点分析  
1. 高级词汇：列出文中使用的高级词汇，并简要说明它们的高级之处  
2. 亮点表达：指出文中的优秀句式、逻辑结构或语言表达，并说明其亮点价值  

四、写作建议  
根据本次作文的表现，提出有针对性的提升建议，如句式多样性、语法掌握、逻辑结构等方面。
".

(** [{ role: "system", content: SYSTEM_PROMPT }] *)
Definition system_message : value :=
  JObject [("role", JString "system"); ("content", JString SYSTEM_PROMPT)].

(** [const { messages = [] } = parsed]: the default stands in for
    [undefined] only, and destructuring [null] throws. *)
Definition destructure_messages (parsed : value) : Eff value :=
  x <- await (get parsed "messages") ;;
  ret (match x with
       | Some m => m
       | None => JArray []
       end).

(** [(msg) => msg.role === "system"] *)
Definition is_system (msg : value) : Eff bool :=
  role <- await (get msg "role") ;;
  ret (strict_equal_string role "system").

(** The loop of [Array.prototype.some]: it stops at the first element
    the callback accepts. *)
Fixpoint some_from (callback : value -> Eff bool) (elements : list value)
  : Eff bool :=
  match elements with
  | [] => ret false
  | x :: rest =>
      b <- callback x ;;
      if b then ret true else some_from callback rest
  end.

(** [v.some(callback)]: of the parsed values only arrays have the
    method. *)
Definition Array_some (v : value) (callback : value -> Eff bool) : Eff bool :=
  match v with
  | JArray elements => some_from callback elements
  | JNull => throw (TypeError "Cannot read properties of null")
  | JBool _ | JNumber _ | JString _ | JObject _ =>
      throw (TypeError "messages.some is not a function")
  end.

(** [v.unshift(x)], keeping the array; its members come from
    [JSON.parse], so nothing else holds a reference to it. *)
Definition Array_unshift (v : value) (x : value) : Eff value :=
  match v with
  | JArray elements => ret (JArray (x :: elements))
  | JNull => throw (TypeError "Cannot read properties of null")
  | JBool _ | JNumber _ | JString _ | JObject _ =>
      throw (TypeError "messages.unshift is not a function")
  end.

(** The [try] block of [handleChatRequest] up to the call of the model:
    parse the JSON request body, add the system prompt if not present. *)
Definition parse_and_normalize (request : Request) : Eff value :=
  parsed <- await (Request_json request) ;;
  messages <- destructure_messages parsed ;;
  present <- Array_some messages is_system ;;
  if negb present
  then Array_unshift messages system_message
  else ret messages.

(** The response of the [catch] block. *)
Definition error_response : Response :=
  new_Response
    (JSON_stringify [("error", "Failed to process request")])
    {| init_status := 500;
       init_headers := [("content-type", "application/json")] |}.

(** Handles chat API requests *)
Definition handleChatRequest (request : Request) (env : Env) : Eff Response :=
  try_catch
    (messages <- parse_and_normalize request ;;
     response <- AI_run env MODEL_ID
                   {| messages := messages; max_tokens := 1024 |}
                   {| returnRawResponse := true |} ;;
     ret response)
    (fun error =>
       console_error "Error processing chat request:" error ;;;
       ret error_response).

(** The third argument of [fetch], which the worker does not use. *)
Inductive ExecutionContext : Set := execution_context.

(** Main request handler for the Worker *)
Definition fetch (request : Request) (env : Env) (ctx : ExecutionContext)
  : Eff Response :=
  let url := Request_url request in
  if String.eqb (pathname url) "/" || negb (startsWith (pathname url) "/api/")
  then ASSETS_fetch env request
  else if String.eqb (pathname url) "/api/chat"
  then
    if String.eqb (Request_method request) "POST"
    then handleChatRequest request env
    else ret (new_Response "Method not allowed"
                {| init_status := 405; init_headers := [] |})
  else ret (new_Response "Not found"
              {| init_status := 404; init_headers := [] |}).

(** ** Vocabulary of the specification *)

(** The calls of the model among the effects, in order. *)
Definition ai_runs (t : list event) : list (string * AiInputs * AiOptions) :=
  flat_map (fun ev =>
              match ev with
              | AiRun model inputs options => [(model, inputs, options)]
              | AssetsFetch _ | ConsoleError _ _ => []
              end) t.

(** The one call the handler makes for the message sequence [sent]. *)
Definition dispatch_of (sent : value) : string * AiInputs * AiOptions :=
  (MODEL_ID,
   {| messages := sent; max_tokens := 1024 |},
   {| returnRawResponse := true |}).

(** [v] has the role [r]: reading [v.role] yields the string [r]. *)
Definition role_is (v : value) (r : string) : Prop :=
  get v "role" = Returned (Some (JString r)).

Definition content_is (v : value) (c : string) : Prop :=
  get v "content" = Returned (Some (JString c)).

(** The same test as a function, total on the parsed values: [null] has
    no role. *)
Definition has_role_system (v : value) : bool :=
  match v with
  | JObject members => strict_equal_string (own_property "role" members) "system"
  | _ => false
  end.

Definition is_null (v : value) : bool :=
  match v with
  | JNull => true
  | _ => false
  end.

Definition is_array (v : value) : bool :=
  match v with
  | JArray _ => true
  | _ => false
  end.

(** A parsed value that is not a JSON object: a primitive or an array. *)
Definition is_object (v : value) : bool :=
  match v with
  | JObject _ => true
  | _ => false
  end.

(** What the scan [messages.some(is_system)] comes to on an array,
    without the monad. *)
Fixpoint scan (elements : list value) : outcome bool :=
  match elements with
  | [] => Returned false
  | x :: rest =>
      if is_null x then Thrown (TypeError "Cannot read properties of null")
      else if has_role_system x then Returned true
      else scan rest
  end.

(** A well-formed message list: an array of chat messages. *)
Definition is_message_list (v : value) : bool :=
  match v with
  | JArray elements => forallb is_ChatMessage elements
  | _ => false
  end.

Definition not_null (v : value) : bool := negb (is_null v).

(** The label of the line the [catch] block writes. *)
Definition error_label : string := "Error processing chat request:".

(** The body of the uniform error response, character by character. *)
Definition error_body_text : string :=
  ("{" ++ dquote ++ "error" ++ dquote ++ ":"
       ++ dquote ++ "Failed to process request" ++ dquote ++ "}")%string.

(** ** Sample requests and environments *)

Module Sample.

Definition request (path method : string) (parsed : outcome value) : Request :=
  {| Request_url := {| pathname := path |};
     Request_method := method;
     Request_json := parsed |}.

Definition chat (parsed : value) : Request :=
  request "/api/chat" "POST" (Returned parsed).

Definition message (role content : string) : value :=
  JObject [("role", JString role); ("content", JString content)].

Definition stream : Response :=
  {| status := 200;
     headers := [("content-type", "text/event-stream")];
     body := BodyStream ["data: {}"; "data: [DONE]"] |}.

Definition page : Response :=
  {| status := 200;
     headers := [("content-type", "text/html")];
     body := BodyText "<!doctype html>" |}.

(** Both collaborators answer. *)
Definition env : Env :=
  {| ASSETS := {| Fetcher_fetch := fun _ => Returned page |};
     AI := {| Ai_run := fun _ _ _ => Returned stream |} |}.

(** The model fails. *)
Definition env_down : Env :=
  {| ASSETS := {| Fetcher_fetch := fun _ => Returned page |};
     AI := {| Ai_run := fun _ _ _ => Thrown (Failure "quota exceeded") |} |}.

(** The number 42. *)
Definition forty_two : value := JNumber (S754_finite false 21 1).

End Sample.

(** ** More vocabulary: the other effects *)

(** The requests handed to the asset collaborator, in order. *)
Definition assets_calls (t : list event) : list Request :=
  flat_map (fun ev =>
              match ev with
              | AssetsFetch request => [request]
              | AiRun _ _ _ | ConsoleError _ _ => []
              end) t.

(** The lines written with [console.error], in order. *)
Definition console_errors (t : list event) : list (string * error) :=
  flat_map (fun ev =>
              match ev with
              | ConsoleError label e => [(label, e)]
              | AssetsFetch _ | AiRun _ _ _ => []
              end) t.

(** Something in the [try] block of the handler throws [e]: a statement
    before the call of the model, or the call itself. *)
Definition try_block_throws (request : Request) (env : Env) (e : error)
  : Prop :=
  result (parse_and_normalize request) = Thrown e
  \/ exists sent,
      result (parse_and_normalize request) = Returned sent
      /\ Ai_run (AI env) MODEL_ID
           {| messages := sent; max_tokens := 1024 |}
           {| returnRawResponse := true |} = Thrown e.

(** The path takes the router to the asset collaborator. *)
Definition is_asset_path (path : string) : bool :=
  String.eqb path "/" || negb (startsWith path "/api/").

(** ** The copy of the worker for the Qwen model

    The second copy of the worker in the repository.  Its two functions
    read as those of [src/index.ts] line for line; the model and the
    prompt are its own. *)

Module Qwen.

(** Model ID for Workers AI model *)
Definition MODEL_ID : string := "@cf/qwen/qwen1.5-14b-chat-awq".

(** Default system prompt.  The text holds double quotes, so it is given
    as the pieces between them. *)
Definition SYSTEM_PROMPT : string :=
  String.concat dquote
    ["
你是一名高中英语老师，现有一篇英语书信作文需要你批改，你需要对这篇作文评分(满分为15分)并找出文章中所有的拼写错误，用词不当以及语法错误；同时找出文章中的高级词汇，亮点表达；最后，你还需要为该同学提出写作进步的建议。
为了定位，请将文章中的所有错误的开始下标与结束下标返回；对于错误分析，请详细分析语法知识点并给出一定的正例与反例；对于亮点分析，请详细给出亮点的优秀之处。
作文：{essay}
输出格式：
输出格式为如下json格式：
{";
     "评分";
     ":";
     "xx";
     ",";
     "错误分析";
     ":{";
     "拼写错误";
     ":";
     "xxxxxxxx";
     ",";
     "语法错误";
     ":";
     "xxxxxxxx";
     ",";
     "用词不当";
     ":";
     "xxxxxxxx";
     "},";
     "亮点分析";
     ":{";
     "高级词汇";
     ":";
     "xxxxxxxx";
     ",";
     "亮点表达";
     ":";
     "xxxxxxxx";
     "},";
     "写作建议";
     ":";
     "xxxxxxxx";
     "}
"].

Definition system_message : value :=
  JObject [("role", JString "system"); ("content", JString SYSTEM_PROMPT)].

Definition parse_and_normalize (request : Request) : Eff value :=
  parsed <- await (Request_json request) ;;
  messages <- destructure_messages parsed ;;
  present <- Array_some messages is_system ;;
  if negb present
  then Array_unshift messages system_message
  else ret messages.

(** Handles chat API requests *)
Definition handleChatRequest (request : Request) (env : Env) : Eff Response :=
  try_catch
    (messages <- parse_and_normalize request ;;
     response <- AI_run env MODEL_ID
                   {| messages := messages; max_tokens := 1024 |}
                   {| returnRawResponse := true |} ;;
     ret response)
    (fun error =>
       console_error "Error processing chat request:" error ;;;
       ret error_response).

(** Main request handler for the Worker *)
Definition fetch (request : Request) (env : Env) (ctx : ExecutionContext)
  : Eff Response :=
  let url := Request_url request in
  if String.eqb (pathname url) "/" || negb (startsWith (pathname url) "/api/")
  then ASSETS_fetch env request
  else if String.eqb (pathname url) "/api/chat"
  then
    if String.eqb (Request_method request) "POST"
    then handleChatRequest request env
    else ret (new_Response "Method not allowed"
                {| init_status := 405; init_headers := [] |})
  else ret (new_Response "Not found"
              {| init_status := 404; init_headers := [] |}).

(** The call the copy makes for the message sequence [sent]. *)
Definition dispatch_of (sent : value) : string * AiInputs * AiOptions :=
  (MODEL_ID,
   {| messages := sent; max_tokens := 1024 |},
   {| returnRawResponse := true |}).

End Qwen.

(** ** More sample requests and environments *)

Module Fixture.

(** The asset collaborator fails, the model answers. *)
Definition env_no_assets : Env :=
  {| ASSETS := {| Fetcher_fetch := fun _ => Thrown (Failure "asset store") |};
     AI := {| Ai_run := fun _ _ _ => Returned Sample.stream |} |}.

(** The spec's first scenario: one user message. *)
Definition hi : value :=
  JObject [("messages", JArray [Sample.message "user" "Hi"])].

(** The same conversation with members the worker does not read. *)
Definition hi_with_extras : value :=
  JObject [("model", JString "another-model");
           ("messages", JArray [Sample.message "user" "Hi"]);
           ("max_tokens", JNumber (S754_finite false 1 20))].

(** A conversation that carries its own system message. *)
Definition briefed : value :=
  JObject [("messages", JArray [Sample.message "system" "X";
                                Sample.message "user" "Hi"])].

End Fixture.

(** ** The monad *)

Section Monad_laws.
Context {A B : Type}.

Lemma bind_ret (a : A) (k : A -> Eff B) : bind (ret a) k = k a.
Proof. unfold bind, ret. destruct (k a) as [r t]. reflexivity. Qed.

Lemma bind_throw (e : error) (k : A -> Eff B) : bind (throw e) k = throw e.
Proof. reflexivity. Qed.

Lemma bind_await_returned (a : A) (k : A -> Eff B) :
  bind (await (Returned a)) k = k a.
Proof. apply bind_ret. Qed.

Lemma bind_await_thrown (e : error) (k : A -> Eff B) :
  bind (await (Thrown e)) k = throw e.
Proof. reflexivity. Qed.

Lemma try_catch_returned (a : A) (t : list event) (h : error -> Eff A) :
  try_catch (Returned a, t) h = (Returned a, t).
Proof. reflexivity. Qed.
End Monad_laws.

(** ** The scan for a system message *)

Lemma is_system_not_null (msg : value) :
  is_null msg = false -> is_system msg = ret (has_role_system msg).
Proof. destruct msg; intros H; try discriminate H; reflexivity. Qed.

Lemma is_system_null :
  is_system JNull = throw (TypeError "Cannot read properties of null").
Proof. reflexivity. Qed.

(** The monadic loop and the pure scan agree, and the loop has no
    effect. *)
Lemma some_from_scan (elements : list value) :
  some_from is_system elements = await (scan elements).
Proof.
  induction elements as [| x rest IH]; [reflexivity |].
  cbn [some_from scan].
  destruct (is_null x) eqn:Hnull.
  - destruct x; try discriminate Hnull. reflexivity.
  - rewrite (is_system_not_null _ Hnull), bind_ret.
    destruct (has_role_system x); [reflexivity | exact IH].
Qed.

Lemma has_role_system_iff (v : value) :
  has_role_system v = true <-> role_is v "system".
Proof.
  unfold role_is. destruct v; cbn; split; intros H; try discriminate H.
  - destruct (own_property "role" members) as [[| | | s | |] |];
      cbn in H; try discriminate H.
    apply String.eqb_eq in H. subst s. reflexivity.
  - injection H as H. rewrite H. reflexivity.
Qed.

Lemma is_ChatMessage_not_null (v : value) :
  is_ChatMessage v = true -> is_null v = false.
Proof. destruct v; intros H; try discriminate H; reflexivity. Qed.

(** With no [null] among the elements the scan is [existsb]. *)
Lemma scan_not_null (elements : list value) :
  forallb not_null elements = true ->
  scan elements = Returned (existsb has_role_system elements).
Proof.
  induction elements as [| x rest IH]; intros H; [reflexivity |].
  cbn in H. apply andb_prop in H. destruct H as [Hx Hrest].
  cbn [scan existsb]. apply negb_true_iff in Hx. rewrite Hx.
  destruct (has_role_system x); [reflexivity | exact (IH Hrest)].
Qed.

(** The scan stops at the first system message: what follows it is not
    looked at. *)
Lemma scan_stops (before after : list value) (m : value) :
  forallb not_null before = true ->
  existsb has_role_system before = false ->
  has_role_system m = true ->
  scan (before ++ m :: after) = Returned true.
Proof.
  induction before as [| x rest IH]; intros Hnn Hno Hm; cbn.
  - destruct m; try discriminate Hm. cbn in *. rewrite Hm. reflexivity.
  - cbn in Hnn, Hno. apply andb_prop in Hnn. destruct Hnn as [Hx Hrest].
    apply orb_false_elim in Hno. destruct Hno as [Hxs Hrs].
    apply negb_true_iff in Hx. rewrite Hx, Hxs. exact (IH Hrest Hrs Hm).
Qed.

(** A [null] met before any system message makes the scan throw. *)
Lemma scan_null (before after : list value) :
  forallb not_null before = true ->
  existsb has_role_system before = false ->
  scan (before ++ JNull :: after)
  = Thrown (TypeError "Cannot read properties of null").
Proof.
  induction before as [| x rest IH]; intros Hnn Hno; cbn; [reflexivity |].
  cbn in Hnn, Hno. apply andb_prop in Hnn. destruct Hnn as [Hx Hrest].
  apply orb_false_elim in Hno. destruct Hno as [Hxs Hrs].
  apply negb_true_iff in Hx. rewrite Hx, Hxs. exact (IH Hrest Hrs).
Qed.

(** ** Parsing and normalising *)

(** Up to the call of the model the handler has no effect: it ends in a
    value or in an error. *)
Lemma parse_and_normalize_pure (request : Request) :
  parse_and_normalize request = await (result (parse_and_normalize request)).
Proof.
  unfold parse_and_normalize, destructure_messages.
  destruct (Request_json request) as [parsed | e]; [| reflexivity].
  rewrite bind_await_returned.
  destruct (get parsed "messages") as [x | e]; [| reflexivity].
  rewrite bind_await_returned, bind_ret.
  destruct (match x with Some m => m | None => JArray [] end) as [| | | | ms |];
    try reflexivity.
  cbn [Array_some]. rewrite some_from_scan.
  destruct (scan ms) as [[|] | e]; reflexivity.
Qed.

(** On an array the outcome is that of the scan. *)
Lemma normalize_array (request : Request) (parsed : value) (ms : list value) :
  Request_json request = Returned parsed ->
  destructure_messages parsed = ret (JArray ms) ->
  parse_and_normalize request
  = match scan ms with
    | Returned true => ret (JArray ms)
    | Returned false => ret (JArray (system_message :: ms))
    | Thrown e => throw e
    end.
Proof.
  intros Hjson Hmsgs. unfold parse_and_normalize.
  rewrite Hjson, bind_await_returned, Hmsgs, bind_ret.
  cbn [Array_some]. rewrite some_from_scan.
  destruct (scan ms) as [[|] | e]; reflexivity.
Qed.

(** Anything but an array has no [some] to call. *)
Lemma normalize_not_array (request : Request) (parsed m : value) :
  Request_json request = Returned parsed ->
  destructure_messages parsed = ret m ->
  is_array m = false ->
  exists e, parse_and_normalize request = throw e.
Proof.
  intros Hjson Hmsgs Hm. unfold parse_and_normalize.
  rewrite Hjson, bind_await_returned, Hmsgs, bind_ret.
  destruct m; try discriminate Hm; eexists; reflexivity.
Qed.

(** Destructuring a value that is not [null] and has no own [messages]
    yields the default. *)
Lemma destructure_default (parsed : value) :
  get parsed "messages" = Returned None ->
  destructure_messages parsed = ret (JArray []).
Proof.
  intros H. unfold destructure_messages. rewrite H. reflexivity.
Qed.

Lemma destructure_present (parsed m : value) :
  get parsed "messages" = Returned (Some m) ->
  destructure_messages parsed = ret m.
Proof.
  intros H. unfold destructure_messages. rewrite H. reflexivity.
Qed.

(** ** The handler after normalisation *)

Lemma handle_normalized (request : Request) (env : Env) (sent : value) :
  result (parse_and_normalize request) = Returned sent ->
  handleChatRequest request env
  = match Ai_run (AI env) MODEL_ID
            {| messages := sent; max_tokens := 1024 |}
            {| returnRawResponse := true |} with
    | Returned response =>
        (Returned response,
         [AiRun MODEL_ID {| messages := sent; max_tokens := 1024 |}
                {| returnRawResponse := true |}])
    | Thrown e =>
        (Returned error_response,
         [AiRun MODEL_ID {| messages := sent; max_tokens := 1024 |}
                {| returnRawResponse := true |};
          ConsoleError error_label e])
    end.
Proof.
  intros H. unfold handleChatRequest.
  rewrite parse_and_normalize_pure, H, bind_await_returned.
  unfold AI_run, bind, try_catch, ret, console_error, error_label.
  destruct (Ai_run _ _ _ _); reflexivity.
Qed.

Lemma handle_failed (request : Request) (env : Env) (e : error) :
  result (parse_and_normalize request) = Thrown e ->
  handleChatRequest request env
  = (Returned error_response, [ConsoleError error_label e]).
Proof.
  intros H. unfold handleChatRequest.
  rewrite parse_and_normalize_pure, H. reflexivity.
Qed.

(** Every run of the handler leaves a mark: it calls the model or writes
    the error line. *)
Lemma handler_has_effect (request : Request) (env : Env) :
  trace (handleChatRequest request env) <> [].
Proof.
  destruct (result (parse_and_normalize request)) as [sent | e] eqn:H.
  - rewrite (handle_normalized _ env H).
    destruct (Ai_run _ _ _ _); discriminate.
  - rewrite (handle_failed _ env H). discriminate.
Qed.

Lemma JSON_stringify_error :
  JSON_stringify [("error", "Failed to process request")] = error_body_text.
Proof. reflexivity. Qed.

Lemma error_response_shape :
  status error_response = 500
  /\ headers error_response = [("content-type", "application/json")]
  /\ body error_response = BodyText error_body_text.
Proof. repeat split. Qed.

Lemma ai_runs_normalized (request : Request) (env : Env) (sent : value) :
  result (parse_and_normalize request) = Returned sent ->
  ai_runs (trace (handleChatRequest request env)) = [dispatch_of sent].
Proof.
  intros H. rewrite (handle_normalized _ env H).
  destruct (Ai_run _ _ _ _); reflexivity.
Qed.

Lemma ai_runs_failed (request : Request) (env : Env) (e : error) :
  result (parse_and_normalize request) = Thrown e ->
  ai_runs (trace (handleChatRequest request env)) = [].
Proof. intros H. rewrite (handle_failed _ env H). reflexivity. Qed.

(** ** Normalisation of message lists *)

Lemma ChatMessages_not_null (ms : list value) :
  Forall (fun m => is_ChatMessage m = true) ms ->
  forallb not_null ms = true.
Proof.
  intros H. apply forallb_forall. intros m Hm.
  rewrite Forall_forall in H. unfold not_null.
  rewrite (is_ChatMessage_not_null _ (H m Hm)). reflexivity.
Qed.

(** No element reads as a system message: the prompt goes in front.
    The elements need not be chat messages, so long as none is [null]. *)
Lemma normalize_injects (request : Request) (parsed : value) (ms : list value) :
  Request_json request = Returned parsed ->
  destructure_messages parsed = ret (JArray ms) ->
  forallb not_null ms = true ->
  existsb has_role_system ms = false ->
  parse_and_normalize request = ret (JArray (system_message :: ms)).
Proof.
  intros Hjson Hmsgs Hnn Hno.
  rewrite (normalize_array _ Hjson Hmsgs), (scan_not_null _ Hnn), Hno.
  reflexivity.
Qed.

(** Some element reads as a system message and no [null] comes before
    it: the array stays as it is. *)
Lemma normalize_keeps (request : Request) (parsed : value)
  (before after : list value) (m : value) :
  Request_json request = Returned parsed ->
  destructure_messages parsed = ret (JArray (before ++ m :: after)) ->
  forallb not_null before = true ->
  existsb has_role_system before = false ->
  has_role_system m = true ->
  parse_and_normalize request = ret (JArray (before ++ m :: after)).
Proof.
  intros Hjson Hmsgs Hnn Hno Hm.
  rewrite (normalize_array _ Hjson Hmsgs), (scan_stops _ _ _ Hnn Hno Hm).
  reflexivity.
Qed.

(** C1. If the parsed messages array of a chat request has no element
    with role system, the sequence passed to the model has one element
    more than the input; its element at index 0 has role system and the
    instruction template as content, and the elements after it are the
    input in order. *)
Theorem C1_system_prompt_prepended
  (request : Request) (env : Env) (parsed : value) (ms : list value) :
  Request_json request = Returned parsed ->
  destructure_messages parsed = ret (JArray ms) ->
  Forall (fun m => is_ChatMessage m = true) ms ->
  (forall m, In m ms -> ~ role_is m "system") ->
  exists (sent : list value) (first : value),
    ai_runs (trace (handleChatRequest request env)) = [dispatch_of (JArray sent)]
    /\ length sent = S (length ms)
    /\ nth_error sent 0 = Some first
    /\ role_is first "system"
    /\ content_is first SYSTEM_PROMPT
    /\ forall i : nat, nth_error sent (S i) = nth_error ms i.
Proof.
  intros Hjson Hmsgs Htyped Hnone.
  assert (Hno : existsb has_role_system ms = false).
  { destruct (existsb has_role_system ms) eqn:E; [| reflexivity].
    apply existsb_exists in E. destruct E as [m [Hin Hm]].
    apply has_role_system_iff in Hm. destruct (Hnone m Hin Hm). }
  pose proof (normalize_injects _ Hjson Hmsgs
                (ChatMessages_not_null Htyped) Hno) as Hnorm.
  exists (system_message :: ms), system_message.
  split.
  - apply ai_runs_normalized. rewrite Hnorm. reflexivity.
  - repeat split.
Qed.

Lemma C1_witness :
  exists (sent : list value) (first : value),
    ai_runs (trace (handleChatRequest
                      (Sample.chat
                         (JObject [("messages",
                                    JArray [Sample.message "user" "Hi"])]))
                      Sample.env))
    = [dispatch_of (JArray sent)]
    /\ length sent = 2%nat
    /\ nth_error sent 0 = Some first
    /\ role_is first "system"
    /\ content_is first SYSTEM_PROMPT
    /\ forall i : nat,
        nth_error sent (S i) = nth_error [Sample.message "user" "Hi"] i.
Proof.
  apply (@C1_system_prompt_prepended
           (Sample.chat
              (JObject [("messages", JArray [Sample.message "user" "Hi"])]))
           Sample.env
           (JObject [("messages", JArray [Sample.message "user" "Hi"])])
           [Sample.message "user" "Hi"]).
  - reflexivity.
  - reflexivity.
  - repeat constructor.
  - intros m [<- | []] H. discriminate H.
Defined.

(** C2. If the parsed messages array of a chat request has an element
    with role system, wherever it stands and whatever its content, the
    sequence passed to the model is the input sequence itself. *)
Theorem C2_system_message_suppresses_injection
  (request : Request) (env : Env) (parsed : value) (ms : list value) :
  Request_json request = Returned parsed ->
  destructure_messages parsed = ret (JArray ms) ->
  Forall (fun m => is_ChatMessage m = true) ms ->
  (exists m, In m ms /\ role_is m "system") ->
  ai_runs (trace (handleChatRequest request env)) = [dispatch_of (JArray ms)].
Proof.
  intros Hjson Hmsgs Htyped [m [Hin Hm]].
  apply ai_runs_normalized.
  rewrite (normalize_array _ Hjson Hmsgs),
    (scan_not_null _ (ChatMessages_not_null Htyped)).
  replace (existsb has_role_system ms) with true; [reflexivity |].
  symmetry. apply existsb_exists. exists m. split; [exact Hin |].
  apply has_role_system_iff. exact Hm.
Qed.

Lemma C2_witness :
  ai_runs (trace (handleChatRequest
                    (Sample.chat
                       (JObject [("messages",
                                  JArray [Sample.message "user" "Hi";
                                          Sample.message "system" "X"])]))
                    Sample.env))
  = [dispatch_of (JArray [Sample.message "user" "Hi";
                          Sample.message "system" "X"])].
Proof.
  apply (@C2_system_message_suppresses_injection
           (Sample.chat
              (JObject [("messages",
                         JArray [Sample.message "user" "Hi";
                                 Sample.message "system" "X"])]))
           Sample.env
           (JObject [("messages",
                      JArray [Sample.message "user" "Hi";
                              Sample.message "system" "X"])])).
  - reflexivity.
  - reflexivity.
  - repeat constructor.
  - exists (Sample.message "system" "X"). split.
    + right. left. reflexivity.
    + reflexivity.
Defined.

(** ** Failures *)

(** C3. The chat handler never throws.  When parsing the body,
    normalising the messages or calling the model fails, it returns the
    response with status 500, content type application/json and the
    fixed error body; when all three succeed it returns the model's
    response, and the [catch] block is not entered. *)
Theorem C3_failures_become_error_response (request : Request) (env : Env) :
  (exists response, result (handleChatRequest request env) = Returned response)
  /\ (forall e,
        Request_json request = Thrown e ->
        result (handleChatRequest request env) = Returned error_response)
  /\ (forall e,
        result (parse_and_normalize request) = Thrown e ->
        result (handleChatRequest request env) = Returned error_response)
  /\ (forall sent e,
        result (parse_and_normalize request) = Returned sent ->
        Ai_run (AI env) MODEL_ID
          {| messages := sent; max_tokens := 1024 |}
          {| returnRawResponse := true |} = Thrown e ->
        result (handleChatRequest request env) = Returned error_response)
  /\ (forall sent response,
        result (parse_and_normalize request) = Returned sent ->
        Ai_run (AI env) MODEL_ID
          {| messages := sent; max_tokens := 1024 |}
          {| returnRawResponse := true |} = Returned response ->
        result (handleChatRequest request env) = Returned response
        /\ forall label e,
            ~ In (ConsoleError label e) (trace (handleChatRequest request env)))
  /\ status error_response = 500
  /\ headers error_response = [("content-type", "application/json")]
  /\ body error_response = BodyText error_body_text.
Proof.
  split; [| split; [| split; [| split; [| split]]]].
  - destruct (result (parse_and_normalize request)) as [sent | e] eqn:H.
    + rewrite (handle_normalized _ env H).
      destruct (Ai_run _ _ _ _); eexists; reflexivity.
    + rewrite (handle_failed _ env H). eexists; reflexivity.
  - intros e H.
    assert (Hpn : result (parse_and_normalize request) = Thrown e).
    { unfold parse_and_normalize. rewrite H. reflexivity. }
    rewrite (handle_failed _ env Hpn). reflexivity.
  - intros e H. rewrite (handle_failed _ env H). reflexivity.
  - intros sent e H Hai. rewrite (handle_normalized _ env H), Hai. reflexivity.
  - intros sent response H Hai.
    rewrite (handle_normalized _ env H), Hai. split; [reflexivity |].
    intros label e [Habs | []]. discriminate Habs.
  - exact error_response_shape.
Qed.

Lemma C3_witness :
  result (handleChatRequest
            (Sample.request "/api/chat" "POST"
               (Thrown (SyntaxError "Unexpected token")))
            Sample.env)
  = Returned error_response
  /\ result (handleChatRequest
               (Sample.chat (JObject [("messages", JArray [JNull])]))
               Sample.env)
     = Returned error_response
  /\ result (handleChatRequest (Sample.chat (JObject [])) Sample.env_down)
     = Returned error_response
  /\ result (handleChatRequest (Sample.chat (JObject [])) Sample.env)
     = Returned Sample.stream.
Proof.
  split; [| split; [| split]].
  - apply (proj1 (proj2 (C3_failures_become_error_response
                           (Sample.request "/api/chat" "POST"
                              (Thrown (SyntaxError "Unexpected token")))
                           Sample.env))
             (SyntaxError "Unexpected token")).
    reflexivity.
  - apply (proj1 (proj2 (proj2 (C3_failures_become_error_response
                                  (Sample.chat
                                     (JObject [("messages", JArray [JNull])]))
                                  Sample.env)))
             (TypeError "Cannot read properties of null")).
    reflexivity.
  - apply (proj1 (proj2 (proj2 (proj2 (C3_failures_become_error_response
                                         (Sample.chat (JObject []))
                                         Sample.env_down))))
             (JArray [system_message]) (Failure "quota exceeded")).
    + reflexivity.
    + reflexivity.
  - apply (proj1 (proj2 (proj2 (proj2 (proj2
             (C3_failures_become_error_response
                (Sample.chat (JObject [])) Sample.env)))))
             (JArray [system_message]) Sample.stream).
    + reflexivity.
    + reflexivity.
Defined.

(** ** Dispatch and relay *)

(** C9. When parsing and normalising succeed, the model is called
    exactly once, with the constant model identifier, the normalised
    message sequence, [max_tokens] 1024 and [returnRawResponse] true;
    and when the model answers, the handler's response is that answer
    itself. *)
Theorem C9_one_dispatch_relayed_unchanged
  (request : Request) (env : Env) (sent : value) :
  result (parse_and_normalize request) = Returned sent ->
  ai_runs (trace (handleChatRequest request env))
  = [(MODEL_ID,
      {| messages := sent; max_tokens := 1024 |},
      {| returnRawResponse := true |})]
  /\ forall response,
      Ai_run (AI env) MODEL_ID
        {| messages := sent; max_tokens := 1024 |}
        {| returnRawResponse := true |} = Returned response ->
      handleChatRequest request env
      = (Returned response,
         [AiRun MODEL_ID
            {| messages := sent; max_tokens := 1024 |}
            {| returnRawResponse := true |}]).
Proof.
  intros H. split.
  - exact (ai_runs_normalized _ env H).
  - intros response Hai. rewrite (handle_normalized _ env H), Hai.
    reflexivity.
Qed.

Lemma C9_witness :
  ai_runs (trace (handleChatRequest
                    (Sample.chat
                       (JObject [("messages",
                                  JArray [Sample.message "user" "Hi"])]))
                    Sample.env))
  = [(MODEL_ID,
      {| messages := JArray [system_message; Sample.message "user" "Hi"];
         max_tokens := 1024 |},
      {| returnRawResponse := true |})]
  /\ forall response,
      Returned Sample.stream = Returned response ->
      handleChatRequest
        (Sample.chat
           (JObject [("messages", JArray [Sample.message "user" "Hi"])]))
        Sample.env
      = (Returned response,
         [AiRun MODEL_ID
            {| messages := JArray [system_message; Sample.message "user" "Hi"];
               max_tokens := 1024 |}
            {| returnRawResponse := true |}]).
Proof.
  apply (@C9_one_dispatch_relayed_unchanged
           (Sample.chat
              (JObject [("messages", JArray [Sample.message "user" "Hi"])]))
           Sample.env
           (JArray [system_message; Sample.message "user" "Hi"])).
  reflexivity.
Defined.

(** A body of the declared shape, an object whose [messages] is absent or
    an array of chat messages, is parsed and normalised without error. *)
Lemma typed_body_normalizes
  (request : Request) (members : list (string * value)) :
  Request_json request = Returned (JObject members) ->
  (own_property "messages" members = None
   \/ exists ms,
       own_property "messages" members = Some (JArray ms)
       /\ Forall (fun m => is_ChatMessage m = true) ms) ->
  exists sent, result (parse_and_normalize request) = Returned (JArray sent).
Proof.
  intros Hjson [Habsent | [ms [Hpresent Htyped]]].
  - exists [system_message].
    rewrite (normalize_array (ms := []) _ Hjson); [reflexivity |].
    apply destructure_default. cbn. rewrite Habsent. reflexivity.
  - assert (Hmsgs : destructure_messages (JObject members) = ret (JArray ms)).
    { apply destructure_present. cbn. rewrite Hpresent. reflexivity. }
    rewrite (normalize_array _ Hjson Hmsgs),
      (scan_not_null _ (ChatMessages_not_null Htyped)).
    destruct (existsb has_role_system ms); eexists; reflexivity.
Qed.

(** ** The router *)

Lemma under_api_not_root (path : string) :
  startsWith path "/api/" = true -> String.eqb path "/" = false.
Proof.
  intros H. destruct (String.eqb_spec path "/") as [-> | _];
    [discriminate H | reflexivity].
Qed.

(** C4. A request to the chat path with a method other than POST gets
    status 405 and the plain-text body "Method not allowed"; neither
    collaborator is called and the chat handler, which always leaves an
    effect, is not run. *)
Theorem C4_other_methods_405
  (request : Request) (env : Env) (ctx : ExecutionContext) :
  pathname (Request_url request) = "/api/chat" ->
  Request_method request <> "POST" ->
  exists response,
    fetch request env ctx = (Returned response, [])
    /\ status response = 405
    /\ body response = BodyText "Method not allowed"
    /\ headers response = [("content-type", "text/plain;charset=UTF-8")]
    /\ trace (handleChatRequest request env) <> [].
Proof.
  intros Hpath Hmethod. unfold fetch. rewrite Hpath. cbn.
  destruct (String.eqb_spec (Request_method request) "POST") as [E | _];
    [destruct (Hmethod E) |].
  eexists. split; [reflexivity |].
  repeat split. apply handler_has_effect.
Qed.

Lemma C4_witness :
  exists response,
    fetch (Sample.request "/api/chat" "GET" (Returned JNull))
      Sample.env execution_context
    = (Returned response, [])
    /\ status response = 405
    /\ body response = BodyText "Method not allowed"
    /\ headers response = [("content-type", "text/plain;charset=UTF-8")]
    /\ trace (handleChatRequest
                (Sample.request "/api/chat" "GET" (Returned JNull))
                Sample.env) <> [].
Proof.
  apply (@C4_other_methods_405
           (Sample.request "/api/chat" "GET" (Returned JNull))
           Sample.env execution_context).
  - reflexivity.
  - discriminate.
Defined.

(** C5. A request whose path begins with the API prefix and is not the
    chat path gets status 404 and the plain-text body "Not found";
    neither collaborator is called and the chat handler is not run. *)
Theorem C5_unknown_api_path_404
  (request : Request) (env : Env) (ctx : ExecutionContext) :
  startsWith (pathname (Request_url request)) "/api/" = true ->
  pathname (Request_url request) <> "/api/chat" ->
  exists response,
    fetch request env ctx = (Returned response, [])
    /\ status response = 404
    /\ body response = BodyText "Not found"
    /\ headers response = [("content-type", "text/plain;charset=UTF-8")]
    /\ trace (handleChatRequest request env) <> [].
Proof.
  intros Hprefix Hpath. unfold fetch. cbv zeta.
  rewrite (under_api_not_root _ Hprefix), Hprefix. cbn [orb negb].
  destruct (String.eqb_spec (pathname (Request_url request)) "/api/chat")
    as [E | _]; [destruct (Hpath E) |].
  eexists. split; [reflexivity |].
  repeat split. apply handler_has_effect.
Qed.

Lemma C5_witness :
  exists response,
    fetch (Sample.request "/api/unknown" "POST" (Returned JNull))
      Sample.env execution_context
    = (Returned response, [])
    /\ status response = 404
    /\ body response = BodyText "Not found"
    /\ headers response = [("content-type", "text/plain;charset=UTF-8")]
    /\ trace (handleChatRequest
                (Sample.request "/api/unknown" "POST" (Returned JNull))
                Sample.env) <> [].
Proof.
  apply (@C5_unknown_api_path_404
           (Sample.request "/api/unknown" "POST" (Returned JNull))
           Sample.env execution_context).
  - reflexivity.
  - discriminate.
Defined.

(** C6. A request whose path is the root path or does not begin with the
    API prefix is handed to the asset collaborator as it is, whatever its
    method, and the router's outcome is the collaborator's: its only
    effect is that one call on the original request. *)
Theorem C6_assets_delegation
  (request : Request) (env : Env) (ctx : ExecutionContext) :
  pathname (Request_url request) = "/"
  \/ startsWith (pathname (Request_url request)) "/api/" = false ->
  fetch request env ctx
  = (Fetcher_fetch (ASSETS env) request, [AssetsFetch request]).
Proof.
  intros [Hroot | Hprefix]; unfold fetch; cbv zeta.
  - rewrite Hroot. reflexivity.
  - rewrite Hprefix, orb_true_r. reflexivity.
Qed.

Lemma C6_witness :
  fetch (Sample.request "/" "DELETE" (Thrown (SyntaxError "no body")))
    Sample.env execution_context
  = (Returned Sample.page,
     [AssetsFetch
        (Sample.request "/" "DELETE" (Thrown (SyntaxError "no body")))])
  /\ fetch (Sample.request "/index.html" "GET" (Returned JNull))
       Sample.env_down execution_context
     = (Returned Sample.page,
        [AssetsFetch (Sample.request "/index.html" "GET" (Returned JNull))]).
Proof.
  split.
  - apply (@C6_assets_delegation
             (Sample.request "/" "DELETE" (Thrown (SyntaxError "no body")))
             Sample.env execution_context).
    left. reflexivity.
  - apply (@C6_assets_delegation
             (Sample.request "/index.html" "GET" (Returned JNull))
             Sample.env_down execution_context).
    right. reflexivity.
Defined.

(** What [startsWith] makes of a path that is put together from a first
    part and a rest. *)
Lemma substring_first_part (first rest : string) :
  substring 0 (String.length first) (first ++ rest)%string = first.
Proof.
  induction first as [| c first IH]; cbn.
  - destruct rest; reflexivity.
  - rewrite IH. reflexivity.
Qed.

Lemma startsWith_first_part (first rest : string) :
  startsWith (first ++ rest)%string first = true.
Proof.
  unfold startsWith. apply String.prefix_correct.
  apply substring_first_part.
Qed.

Lemma startsWith_other_first_part (other rest p : string) :
  String.length other = String.length p ->
  other <> p ->
  startsWith (other ++ rest)%string p = false.
Proof.
  intros Hlen Hne. unfold startsWith.
  destruct (String.prefix p (other ++ rest)%string) eqn:E; [| reflexivity].
  apply String.prefix_correct in E.
  rewrite <- Hlen, substring_first_part in E. destruct (Hne E).
Qed.

Lemma append_same_first_part (first rest1 rest2 : string) :
  (first ++ rest1)%string = (first ++ rest2)%string -> rest1 = rest2.
Proof.
  induction first as [| c first IH]; cbn; intros H; [exact H |].
  injection H as H. exact (IH H).
Qed.

(** C10. Paths are compared as strings, character for character.  The
    path "/api", without the trailing slash, goes to the asset
    collaborator, and so does every path whose first five characters are
    not exactly "/api/", such as "/API/chat" in another case: the outcome
    is the collaborator's and the one call on the request is the only
    effect.  Under the prefix every path whose rest is not exactly
    "chat", such as "/api/chat/" with a trailing slash, gets the 404
    response with no effect, so not the chat handler. *)
Theorem C10_paths_compared_exactly
  (request : Request) (env : Env) (ctx : ExecutionContext) :
  (pathname (Request_url request) = "/api" ->
   fetch request env ctx
   = (Fetcher_fetch (ASSETS env) request, [AssetsFetch request]))
  /\ (forall first rest,
        pathname (Request_url request) = (first ++ rest)%string ->
        String.length first = 5%nat ->
        first <> "/api/" ->
        fetch request env ctx
        = (Fetcher_fetch (ASSETS env) request, [AssetsFetch request]))
  /\ (forall rest,
        pathname (Request_url request) = ("/api/" ++ rest)%string ->
        rest <> "chat" ->
        exists response,
          fetch request env ctx = (Returned response, [])
          /\ status response = 404
          /\ body response = BodyText "Not found"
          /\ headers response = [("content-type", "text/plain;charset=UTF-8")]
          /\ trace (handleChatRequest request env) <> []).
Proof.
  split; [| split].
  - intros Hpath. unfold fetch. rewrite Hpath. reflexivity.
  - intros first rest Hpath Hlen Hne. unfold fetch. cbv zeta.
    rewrite Hpath, (@startsWith_other_first_part first rest "/api/" Hlen Hne),
      orb_true_r.
    reflexivity.
  - intros rest Hpath Hne. unfold fetch. cbv zeta.
    pose proof (startsWith_first_part "/api/" rest) as Hprefix.
    rewrite <- Hpath in Hprefix.
    rewrite (under_api_not_root _ Hprefix), Hprefix. cbn [orb negb].
    destruct (String.eqb_spec (pathname (Request_url request)) "/api/chat")
      as [E | _].
    + rewrite Hpath in E.
      destruct (Hne (@append_same_first_part "/api/" rest "chat" E)).
    + eexists. split; [reflexivity |].
      repeat split. apply handler_has_effect.
Qed.

Lemma C10_witness :
  fetch (Sample.request "/api" "POST" (Returned JNull))
    Sample.env execution_context
  = (Returned Sample.page,
     [AssetsFetch (Sample.request "/api" "POST" (Returned JNull))])
  /\ fetch (Sample.request "/API/chat" "POST" (Returned JNull))
       Sample.env execution_context
     = (Returned Sample.page,
        [AssetsFetch (Sample.request "/API/chat" "POST" (Returned JNull))])
  /\ exists response,
       fetch (Sample.request "/api/chat/" "POST" (Returned JNull))
         Sample.env execution_context
       = (Returned response, [])
       /\ status response = 404
       /\ body response = BodyText "Not found"
       /\ headers response = [("content-type", "text/plain;charset=UTF-8")]
       /\ trace (handleChatRequest
                   (Sample.request "/api/chat/" "POST" (Returned JNull))
                   Sample.env) <> [].
Proof.
  split; [| split].
  - apply (proj1 (C10_paths_compared_exactly
                    (Sample.request "/api" "POST" (Returned JNull))
                    Sample.env execution_context)).
    reflexivity.
  - apply (proj1 (proj2 (C10_paths_compared_exactly
                           (Sample.request "/API/chat" "POST" (Returned JNull))
                           Sample.env execution_context))
             "/API/" "chat").
    + reflexivity.
    + reflexivity.
    + discriminate.
  - apply (proj2 (proj2 (C10_paths_compared_exactly
                           (Sample.request "/api/chat/" "POST" (Returned JNull))
                           Sample.env execution_context))
             "chat/").
    + reflexivity.
    + discriminate.
Defined.

(** ** Bodies of another shape *)

Lemma get_messages_of_non_object (parsed : value) :
  is_object parsed = false ->
  is_null parsed = false ->
  get parsed "messages" = Returned None.
Proof.
  destruct parsed; intros Hobj Hnull;
    try discriminate Hobj; try discriminate Hnull; reflexivity.
Qed.

(** The body 42 is valid JSON and no object, and the handler calls the
    model with the injected system message and relays its answer: it is
    not so that every such body gets the error response. *)
Lemma C7_counterexample :
  is_object Sample.forty_two = false
  /\ handleChatRequest (Sample.chat Sample.forty_two) Sample.env
     = (Returned Sample.stream,
        [AiRun MODEL_ID
           {| messages := JArray [system_message]; max_tokens := 1024 |}
           {| returnRawResponse := true |}])
  /\ ~ (forall (request : Request) (env : Env) (parsed : value),
          Request_json request = Returned parsed ->
          is_object parsed = false ->
          result (handleChatRequest request env) = Returned error_response
          /\ ai_runs (trace (handleChatRequest request env)) = []).
Proof.
  split; [reflexivity | split; [reflexivity |]].
  intros claim.
  destruct (claim (Sample.chat Sample.forty_two) Sample.env Sample.forty_two
              eq_refl eq_refl) as [Habs _].
  discriminate Habs.
Qed.

(** C7, amended.  Of the bodies that are valid JSON and no object, [null]
    gets the uniform error response and the model is not called; for a
    number, a string, a boolean or an array the handler goes on as for an
    empty message list: it calls the model once with the system message
    alone and relays the answer. *)
Theorem C7_only_null_body_is_an_error
  (request : Request) (env : Env) (parsed : value) :
  Request_json request = Returned parsed ->
  is_object parsed = false ->
  (parsed = JNull ->
     handleChatRequest request env
     = (Returned error_response,
        [ConsoleError error_label
           (TypeError "Cannot read properties of null")]))
  /\ (parsed <> JNull ->
        result (parse_and_normalize request) = Returned (JArray [system_message])
        /\ ai_runs (trace (handleChatRequest request env))
           = [dispatch_of (JArray [system_message])]
        /\ forall response,
            Ai_run (AI env) MODEL_ID
              {| messages := JArray [system_message]; max_tokens := 1024 |}
              {| returnRawResponse := true |} = Returned response ->
            result (handleChatRequest request env) = Returned response).
Proof.
  intros Hjson Hobj. split.
  - intros ->. apply handle_failed.
    unfold parse_and_normalize. rewrite Hjson. reflexivity.
  - intros Hnn.
    assert (Hnull : is_null parsed = false).
    { destruct parsed; try reflexivity. destruct Hnn. reflexivity. }
    assert (Hpn : result (parse_and_normalize request)
                  = Returned (JArray [system_message])).
    { rewrite (normalize_array (ms := []) _ Hjson); [reflexivity |].
      apply destructure_default.
      exact (get_messages_of_non_object _ Hobj Hnull). }
    split; [exact Hpn | split].
    + exact (ai_runs_normalized _ env Hpn).
    + intros response Hai. rewrite (handle_normalized _ env Hpn), Hai.
      reflexivity.
Qed.

Lemma C7_witness :
  handleChatRequest (Sample.chat JNull) Sample.env
  = (Returned error_response,
     [ConsoleError error_label (TypeError "Cannot read properties of null")])
  /\ ai_runs (trace (handleChatRequest (Sample.chat (JArray [JBool true]))
                       Sample.env))
     = [dispatch_of (JArray [system_message])].
Proof.
  split.
  - apply (proj1 (@C7_only_null_body_is_an_error
                    (Sample.chat JNull) Sample.env JNull eq_refl eq_refl)).
    reflexivity.
  - apply (proj2 (@C7_only_null_body_is_an_error
                    (Sample.chat (JArray [JBool true])) Sample.env
                    (JArray [JBool true]) eq_refl eq_refl)).
    discriminate.
Defined.

(** The body whose [messages] is the string "hello" has a malformed
    message list, and the handler answers with the error response
    without calling the model; the body whose [messages] is the array of
    the number 42 has one too, and the model is called with two
    elements.  So a malformed list is not taken for the empty one. *)
Lemma C8_counterexample :
  is_message_list (JString "hello") = false
  /\ handleChatRequest
       (Sample.chat (JObject [("messages", JString "hello")])) Sample.env
     = (Returned error_response,
        [ConsoleError error_label
           (TypeError "messages.some is not a function")])
  /\ is_message_list (JArray [Sample.forty_two]) = false
  /\ ai_runs (trace (handleChatRequest
                       (Sample.chat
                          (JObject [("messages", JArray [Sample.forty_two])]))
                       Sample.env))
     = [dispatch_of (JArray [system_message; Sample.forty_two])]
  /\ ~ (forall (request : Request) (env : Env)
               (members : list (string * value)),
          Request_json request = Returned (JObject members) ->
          (own_property "messages" members = None
           \/ exists m,
               own_property "messages" members = Some m
               /\ is_message_list m = false) ->
          ai_runs (trace (handleChatRequest request env))
          = [dispatch_of (JArray [system_message])]).
Proof.
  split; [reflexivity |]. split; [reflexivity |].
  split; [reflexivity |]. split; [reflexivity |].
  intros claim.
  assert (Habs := claim (Sample.chat (JObject [("messages", JString "hello")]))
                    Sample.env [("messages", JString "hello")] eq_refl
                    (or_intror (ex_intro _ (JString "hello")
                                  (conj eq_refl eq_refl)))).
  discriminate Habs.
Qed.

(** C8, amended.  For a body that is a JSON object: when [messages] is
    absent the handler goes on as for the empty list and calls the model
    with the system message alone; when [messages] is there and is no
    array, or is an array in which a [null] comes before any element with
    role system, the handler returns the error response and does not call
    the model; any other array is used as it is, whatever its elements,
    unchanged when an element has role system and with the system
    message in front otherwise. *)
Theorem C8_absent_is_empty_malformed_is_not
  (request : Request) (env : Env) (members : list (string * value)) :
  Request_json request = Returned (JObject members) ->
  (own_property "messages" members = None ->
     result (parse_and_normalize request) = Returned (JArray [system_message])
     /\ ai_runs (trace (handleChatRequest request env))
        = [dispatch_of (JArray [system_message])])
  /\ (forall m,
        own_property "messages" members = Some m ->
        is_array m = false ->
        result (handleChatRequest request env) = Returned error_response
        /\ ai_runs (trace (handleChatRequest request env)) = [])
  /\ (forall before after,
        own_property "messages" members
        = Some (JArray (before ++ JNull :: after)) ->
        forallb not_null before = true ->
        existsb has_role_system before = false ->
        result (handleChatRequest request env) = Returned error_response
        /\ ai_runs (trace (handleChatRequest request env)) = [])
  /\ (forall before m after,
        own_property "messages" members
        = Some (JArray (before ++ m :: after)) ->
        forallb not_null before = true ->
        existsb has_role_system before = false ->
        role_is m "system" ->
        ai_runs (trace (handleChatRequest request env))
        = [dispatch_of (JArray (before ++ m :: after))])
  /\ (forall ms,
        own_property "messages" members = Some (JArray ms) ->
        forallb not_null ms = true ->
        existsb has_role_system ms = false ->
        ai_runs (trace (handleChatRequest request env))
        = [dispatch_of (JArray (system_message :: ms))]).
Proof.
  intros Hjson. split; [| split; [| split; [| split]]].
  - intros Habsent.
    assert (Hpn : result (parse_and_normalize request)
                  = Returned (JArray [system_message])).
    { rewrite (normalize_array (ms := []) _ Hjson); [reflexivity |].
      apply destructure_default. cbn. rewrite Habsent. reflexivity. }
    split; [exact Hpn | exact (ai_runs_normalized _ env Hpn)].
  - intros m Hm Harr.
    destruct (@normalize_not_array request (JObject members) m Hjson)
      as [e He]; [| exact Harr |].
    { apply destructure_present. cbn. rewrite Hm. reflexivity. }
    assert (Hpn : result (parse_and_normalize request) = Thrown e)
      by (rewrite He; reflexivity).
    split; [| exact (ai_runs_failed _ env Hpn)].
    rewrite (handle_failed _ env Hpn). reflexivity.
  - intros before after Hm Hnn Hno.
    assert (Hpn : result (parse_and_normalize request)
                  = Thrown (TypeError "Cannot read properties of null")).
    { rewrite (normalize_array (ms := before ++ JNull :: after) _ Hjson).
      - rewrite (scan_null _ _ Hnn Hno). reflexivity.
      - apply destructure_present. cbn. rewrite Hm. reflexivity. }
    split; [| exact (ai_runs_failed _ env Hpn)].
    rewrite (handle_failed _ env Hpn). reflexivity.
  - intros before m after Hm Hnn Hno Hsys.
    apply ai_runs_normalized.
    rewrite (@normalize_keeps request (JObject members) before after m);
      try assumption; try reflexivity.
    + apply destructure_present. cbn. rewrite Hm. reflexivity.
    + apply has_role_system_iff. exact Hsys.
  - intros ms Hm Hnn Hno.
    apply ai_runs_normalized.
    rewrite (@normalize_injects request (JObject members) ms);
      try assumption; try reflexivity.
    apply destructure_present. cbn. rewrite Hm. reflexivity.
Qed.

Lemma C8_witness :
  ai_runs (trace (handleChatRequest (Sample.chat (JObject [])) Sample.env))
  = [dispatch_of (JArray [system_message])]
  /\ result (handleChatRequest
               (Sample.chat (JObject [("messages", JNull)])) Sample.env)
     = Returned error_response
  /\ result (handleChatRequest
               (Sample.chat (JObject [("messages", JArray [JNull])]))
               Sample.env)
     = Returned error_response
  /\ ai_runs (trace (handleChatRequest
                       (Sample.chat
                          (JObject [("messages",
                                     JArray [Sample.message "system" "X";
                                             JNull])]))
                       Sample.env))
     = [dispatch_of (JArray [Sample.message "system" "X"; JNull])]
  /\ ai_runs (trace (handleChatRequest
                       (Sample.chat
                          (JObject [("messages", JArray [JString "Hi"])]))
                       Sample.env))
     = [dispatch_of (JArray [system_message; JString "Hi"])].
Proof.
  split; [| split; [| split; [| split]]].
  - apply (proj1 (@C8_absent_is_empty_malformed_is_not
                    (Sample.chat (JObject [])) Sample.env [] eq_refl)).
    reflexivity.
  - apply (proj1 (proj2 (@C8_absent_is_empty_malformed_is_not
                           (Sample.chat (JObject [("messages", JNull)]))
                           Sample.env [("messages", JNull)] eq_refl))
             JNull); reflexivity.
  - apply (proj1 (proj2 (proj2 (@C8_absent_is_empty_malformed_is_not
                                  (Sample.chat
                                     (JObject [("messages", JArray [JNull])]))
                                  Sample.env
                                  [("messages", JArray [JNull])] eq_refl)))
             [] []); reflexivity.
  - apply (proj1 (proj2 (proj2 (proj2
             (@C8_absent_is_empty_malformed_is_not
                (Sample.chat
                   (JObject [("messages",
                              JArray [Sample.message "system" "X"; JNull])]))
                Sample.env
                [("messages", JArray [Sample.message "system" "X"; JNull])]
                eq_refl))))
             [] (Sample.message "system" "X") [JNull]); reflexivity.
  - apply (proj2 (proj2 (proj2 (proj2
             (@C8_absent_is_empty_malformed_is_not
                (Sample.chat (JObject [("messages", JArray [JString "Hi"])]))
                Sample.env
                [("messages", JArray [JString "Hi"])] eq_refl))))
             [JString "Hi"]); reflexivity.
Defined.

(** ** The handler, case by case *)

(** A run of the handler ends in one of three ways. *)
Lemma handler_cases (request : Request) (env : Env) :
  (exists e,
      result (parse_and_normalize request) = Thrown e
      /\ handleChatRequest request env
         = (Returned error_response, [ConsoleError error_label e]))
  \/ (exists sent e,
        result (parse_and_normalize request) = Returned sent
        /\ Ai_run (AI env) MODEL_ID
             {| messages := sent; max_tokens := 1024 |}
             {| returnRawResponse := true |} = Thrown e
        /\ handleChatRequest request env
           = (Returned error_response,
              [AiRun MODEL_ID {| messages := sent; max_tokens := 1024 |}
                     {| returnRawResponse := true |};
               ConsoleError error_label e]))
  \/ (exists sent response,
        result (parse_and_normalize request) = Returned sent
        /\ Ai_run (AI env) MODEL_ID
             {| messages := sent; max_tokens := 1024 |}
             {| returnRawResponse := true |} = Returned response
        /\ handleChatRequest request env
           = (Returned response,
              [AiRun MODEL_ID {| messages := sent; max_tokens := 1024 |}
                     {| returnRawResponse := true |}])).
Proof.
  destruct (result (parse_and_normalize request)) as [sent | e] eqn:H.
  - pose proof (handle_normalized _ env H) as Hh.
    destruct (Ai_run (AI env) MODEL_ID _ _) as [response | e] eqn:Hai.
    + right. right. exists sent, response. auto.
    + right. left. exists sent, e. auto.
  - left. exists e. split; [reflexivity | exact (handle_failed _ env H)].
Qed.

(** Where normalisation ends in a value, the body held (or defaulted to)
    an array, and the value is that array or that array behind the
    system message, as the scan decided. *)
Lemma normalized_cases (request : Request) (v : value) :
  result (parse_and_normalize request) = Returned v ->
  exists parsed ms,
    Request_json request = Returned parsed
    /\ destructure_messages parsed = ret (JArray ms)
    /\ ((scan ms = Returned true /\ v = JArray ms)
        \/ (scan ms = Returned false /\ v = JArray (system_message :: ms))).
Proof.
  intros H.
  destruct (Request_json request) as [parsed | e] eqn:Hjson.
  2:{ unfold parse_and_normalize in H. rewrite Hjson in H. discriminate H. }
  destruct (get parsed "messages") as [x | e] eqn:Hget.
  2:{ unfold parse_and_normalize, destructure_messages in H.
      rewrite Hjson, bind_await_returned, Hget in H. discriminate H. }
  assert (Hd : destructure_messages parsed
               = ret (match x with Some m => m | None => JArray [] end)).
  { unfold destructure_messages. rewrite Hget. reflexivity. }
  destruct (match x with Some m => m | None => JArray [] end)
    as [| b | n | s | ms | members] eqn:Hm.
  5:{ exists parsed, ms. split; [reflexivity | split; [exact Hd |]].
      rewrite (normalize_array _ Hjson Hd) in H.
      destruct (scan ms) as [[|] | e]; cbn in H.
      - left. split; [reflexivity |]. injection H as <-. reflexivity.
      - right. split; [reflexivity |]. injection H as <-. reflexivity.
      - discriminate H. }
  all: destruct (normalize_not_array _ Hjson Hd eq_refl) as [e He];
    rewrite He in H; discriminate H.
Qed.

Lemma scan_true_exists (ms : list value) :
  scan ms = Returned true -> exists m, In m ms /\ role_is m "system".
Proof.
  induction ms as [| x rest IH]; cbn; intros H; [discriminate H |].
  destruct (is_null x); [discriminate H |].
  destruct (has_role_system x) eqn:Hx.
  - exists x. split; [left; reflexivity |].
    apply has_role_system_iff. exact Hx.
  - destruct (IH H) as [m [Hin Hm]]. exists m. split; [right |]; assumption.
Qed.

Lemma scan_behind_system_message (ms : list value) :
  scan (system_message :: ms) = Returned true.
Proof. reflexivity. Qed.

(** The two calls the handler can make are told apart by their
    messages. *)
Lemma dispatch_of_injective (v w : value) :
  dispatch_of v = dispatch_of w -> v = w.
Proof. unfold dispatch_of. intros H. injection H as H. exact H. Qed.

(** What the handler passed to the model, if anything, is what
    normalisation returned. *)
Lemma ai_runs_handler (request : Request) (env : Env)
  (call : string * AiInputs * AiOptions) :
  In call (ai_runs (trace (handleChatRequest request env))) ->
  exists sent,
    result (parse_and_normalize request) = Returned sent
    /\ call = dispatch_of sent
    /\ ai_runs (trace (handleChatRequest request env)) = [dispatch_of sent].
Proof.
  intros Hin.
  destruct (result (parse_and_normalize request)) as [sent | e] eqn:H.
  - rewrite (ai_runs_normalized _ env H) in Hin |- *.
    destruct Hin as [<- | []]. exists sent. auto.
  - rewrite (ai_runs_failed _ env H) in Hin. destruct Hin.
Qed.

(** ** The router and the handler together *)

(** The router has four ways out. *)
Lemma fetch_chat_post
  (request : Request) (env : Env) (ctx : ExecutionContext) :
  pathname (Request_url request) = "/api/chat" ->
  Request_method request = "POST" ->
  fetch request env ctx = handleChatRequest request env.
Proof. intros Hpath Hmethod. unfold fetch. rewrite Hpath, Hmethod. reflexivity. Qed.

Lemma fetch_cases (request : Request) (env : Env) (ctx : ExecutionContext) :
  (is_asset_path (pathname (Request_url request)) = true
   /\ fetch request env ctx = ASSETS_fetch env request)
  \/ (is_asset_path (pathname (Request_url request)) = false
      /\ pathname (Request_url request) = "/api/chat"
      /\ Request_method request = "POST"
      /\ fetch request env ctx = handleChatRequest request env)
  \/ (is_asset_path (pathname (Request_url request)) = false
      /\ (pathname (Request_url request) <> "/api/chat"
          \/ Request_method request <> "POST")
      /\ exists response, fetch request env ctx = ret response).
Proof.
  unfold fetch, is_asset_path. cbv zeta.
  destruct (String.eqb (pathname (Request_url request)) "/"
            || negb (startsWith (pathname (Request_url request)) "/api/"))%bool.
  - left. auto.
  - right.
    destruct (String.eqb_spec (pathname (Request_url request)) "/api/chat")
      as [Hpath | Hpath].
    + destruct (String.eqb_spec (Request_method request) "POST")
        as [Hmethod | Hmethod].
      * left. auto.
      * right. split; [reflexivity | split; [right; exact Hmethod |]].
        eexists. reflexivity.
    + right. split; [reflexivity | split; [left; exact Hpath |]].
      eexists. reflexivity.
Qed.

(** X1. A POST to the chat path whose body normalises and whose model
    call answers gets the model's response through the router, and the
    one call of the model is the only effect of the whole request. *)
Theorem X1_chat_post_end_to_end
  (request : Request) (env : Env) (ctx : ExecutionContext)
  (sent : value) (response : Response) :
  pathname (Request_url request) = "/api/chat" ->
  Request_method request = "POST" ->
  result (parse_and_normalize request) = Returned sent ->
  Ai_run (AI env) MODEL_ID
    {| messages := sent; max_tokens := 1024 |}
    {| returnRawResponse := true |} = Returned response ->
  fetch request env ctx
  = (Returned response,
     [AiRun MODEL_ID {| messages := sent; max_tokens := 1024 |}
            {| returnRawResponse := true |}]).
Proof.
  intros Hpath Hmethod Hnorm Hai.
  rewrite (fetch_chat_post _ env ctx Hpath Hmethod).
  rewrite (handle_normalized _ env Hnorm), Hai. reflexivity.
Qed.

Lemma X1_witness :
  fetch (Sample.chat Fixture.hi) Sample.env execution_context
  = (Returned Sample.stream,
     [AiRun MODEL_ID
        {| messages := JArray [system_message; Sample.message "user" "Hi"];
           max_tokens := 1024 |}
        {| returnRawResponse := true |}]).
Proof.
  apply (@X1_chat_post_end_to_end
           (Sample.chat Fixture.hi) Sample.env execution_context
           (JArray [system_message; Sample.message "user" "Hi"])
           Sample.stream); reflexivity.
Defined.

Lemma is_asset_path_false (path : string) :
  is_asset_path path = false <-> startsWith path "/api/" = true.
Proof.
  unfold is_asset_path. split; intros H.
  - apply orb_false_elim in H. destruct H as [_ H].
    apply negb_false_iff in H. exact H.
  - rewrite (under_api_not_root _ H), H. reflexivity.
Qed.

Lemma is_asset_path_true (path : string) :
  is_asset_path path = true ->
  path = "/" \/ startsWith path "/api/" = false.
Proof.
  unfold is_asset_path. intros H. apply orb_prop in H.
  destruct H as [H | H].
  - left. apply String.eqb_eq. exact H.
  - right. apply negb_true_iff. exact H.
Qed.

Lemma handler_returns (request : Request) (env : Env) :
  exists response, result (handleChatRequest request env) = Returned response.
Proof.
  destruct (handler_cases request env)
    as [[e [_ H]] | [[sent [e [_ [_ H]]]] | [sent [response [_ [_ H]]]]]];
    rewrite H; eexists; reflexivity.
Qed.

(** X2. Under the API prefix the worker never throws, whatever the
    method, the body and the collaborators do.  An exception leaves
    [fetch] only on a path that goes to the asset collaborator, and it is
    then the very exception that collaborator threw. *)
Theorem X2_only_asset_failures_escape
  (request : Request) (env : Env) (ctx : ExecutionContext) :
  (startsWith (pathname (Request_url request)) "/api/" = true ->
   exists response, result (fetch request env ctx) = Returned response)
  /\ (forall e,
        result (fetch request env ctx) = Thrown e ->
        (pathname (Request_url request) = "/"
         \/ startsWith (pathname (Request_url request)) "/api/" = false)
        /\ Fetcher_fetch (ASSETS env) request = Thrown e).
Proof.
  destruct (fetch_cases request env ctx)
    as [[Hp H] | [[Hp [_ [_ H]]] | [Hp [_ [response H]]]]]; rewrite H; split.
  - intros Hapi. apply is_asset_path_false in Hapi.
    rewrite Hapi in Hp. discriminate Hp.
  - intros e He. split; [exact (is_asset_path_true _ Hp) | exact He].
  - intros _. apply handler_returns.
  - intros e He. destruct (handler_returns request env) as [response Hr].
    rewrite Hr in He. discriminate He.
  - intros _. exists response. reflexivity.
  - intros e He. discriminate He.
Qed.

Lemma X2_witness :
  (exists response,
      result (fetch (Sample.chat JNull) Sample.env_down execution_context)
      = Returned response)
  /\ (pathname (Request_url (Sample.request "/" "GET" (Returned JNull))) = "/"
      \/ startsWith
           (pathname (Request_url (Sample.request "/" "GET" (Returned JNull))))
           "/api/" = false)
  /\ Fetcher_fetch (ASSETS Fixture.env_no_assets)
       (Sample.request "/" "GET" (Returned JNull))
     = Thrown (Failure "asset store").
Proof.
  split.
  - apply (proj1 (X2_only_asset_failures_escape
                    (Sample.chat JNull) Sample.env_down execution_context)).
    reflexivity.
  - apply (proj2 (X2_only_asset_failures_escape
                    (Sample.request "/" "GET" (Returned JNull))
                    Fixture.env_no_assets execution_context)
             (Failure "asset store")).
    reflexivity.
Defined.

(** X3. One request makes at most one call to a collaborator and never
    one to each: either the asset collaborator is called once, with the
    request as it came in, and nothing else happens; or it is not called
    and the model is called at most once.  Nothing is retried. *)
Theorem X3_at_most_one_collaborator_call
  (request : Request) (env : Env) (ctx : ExecutionContext) :
  (assets_calls (trace (fetch request env ctx)) = [request]
   /\ ai_runs (trace (fetch request env ctx)) = []
   /\ console_errors (trace (fetch request env ctx)) = [])
  \/ (assets_calls (trace (fetch request env ctx)) = []
      /\ (ai_runs (trace (fetch request env ctx)) = []
          \/ exists sent,
              ai_runs (trace (fetch request env ctx)) = [dispatch_of sent])).
Proof.
  destruct (fetch_cases request env ctx)
    as [[_ H] | [[_ [_ [_ H]]] | [_ [_ [response H]]]]]; rewrite H.
  - left. repeat split.
  - right.
    destruct (handler_cases request env)
      as [[e [_ Hh]] | [[sent [e [_ [_ Hh]]]] | [sent [response [_ [_ Hh]]]]]];
      rewrite Hh; split; try reflexivity.
    + left. reflexivity.
    + right. exists sent. reflexivity.
    + right. exists sent. reflexivity.
  - right. split; [reflexivity | left; reflexivity].
Qed.

(** X4. Whatever the request says, a call of the model is made with the
    constant model identifier, [max_tokens] 1024 and [returnRawResponse]
    true, and the messages it carries are an array that holds an element
    with role system: the body cannot change the parameters, and no
    conversation reaches the model without a system message. *)
Theorem X4_every_dispatch_has_a_system_message
  (request : Request) (env : Env) (ctx : ExecutionContext)
  (call : string * AiInputs * AiOptions) :
  In call (ai_runs (trace (fetch request env ctx))) ->
  exists sent m,
    call = (MODEL_ID,
            {| messages := JArray sent; max_tokens := 1024 |},
            {| returnRawResponse := true |})
    /\ In m sent
    /\ role_is m "system".
Proof.
  intros Hin.
  destruct (fetch_cases request env ctx)
    as [[_ H] | [[_ [_ [_ H]]] | [_ [_ [response H]]]]]; rewrite H in Hin.
  - destruct Hin.
  - destruct (ai_runs_handler _ _ _ Hin) as [v [Hv [-> _]]].
    destruct (normalized_cases _ Hv)
      as [parsed [ms [_ [_ [[Hscan ->] | [_ ->]]]]]].
    + destruct (scan_true_exists _ Hscan) as [m [Hm Hrole]].
      exists ms, m. auto.
    + exists (system_message :: ms), system_message.
      split; [reflexivity | split; [left; reflexivity | reflexivity]].
  - destruct Hin.
Qed.

Lemma X4_witness :
  exists sent m,
    dispatch_of (JArray [Sample.message "system" "X";
                         Sample.message "user" "Hi"])
    = (MODEL_ID,
       {| messages := JArray sent; max_tokens := 1024 |},
       {| returnRawResponse := true |})
    /\ In m sent
    /\ role_is m "system".
Proof.
  apply (@X4_every_dispatch_has_a_system_message
           (Sample.chat Fixture.briefed) Sample.env_down execution_context).
  left. reflexivity.
Defined.

(** X5. The handler passes the conversation on as it came: what the
    model receives is the array of the body, or the default, element for
    element and in order, with at most the one system message put in
    front.  No element is dropped, changed or moved, whatever the
    elements are. *)
Theorem X5_messages_kept_in_order
  (request : Request) (env : Env) (call : string * AiInputs * AiOptions) :
  In call (ai_runs (trace (handleChatRequest request env))) ->
  exists parsed ms,
    Request_json request = Returned parsed
    /\ destructure_messages parsed = ret (JArray ms)
    /\ (call = dispatch_of (JArray ms)
        \/ call = dispatch_of (JArray (system_message :: ms))).
Proof.
  intros Hin.
  destruct (ai_runs_handler _ _ _ Hin) as [v [Hv [-> _]]].
  destruct (normalized_cases _ Hv)
    as [parsed [ms [Hjson [Hd [[_ ->] | [_ ->]]]]]];
    exists parsed, ms; auto.
Qed.

Lemma X5_witness :
  exists parsed ms,
    Request_json (Sample.chat Fixture.hi_with_extras) = Returned parsed
    /\ destructure_messages parsed = ret (JArray ms)
    /\ (dispatch_of (JArray [system_message; Sample.message "user" "Hi"])
        = dispatch_of (JArray ms)
        \/ dispatch_of (JArray [system_message; Sample.message "user" "Hi"])
           = dispatch_of (JArray (system_message :: ms))).
Proof.
  apply (@X5_messages_kept_in_order
           (Sample.chat Fixture.hi_with_extras) Sample.env).
  left. reflexivity.
Defined.

(** X6. Normalising is stable: a conversation the handler has passed to
    the model, sent in again as the [messages] of a later request, is
    passed on unchanged, so the prompt is not put in a second time. *)
Theorem X6_dispatched_messages_are_stable
  (request request' : Request) (env env' : Env)
  (parsed' : value) (sent : list value) :
  ai_runs (trace (handleChatRequest request env))
  = [dispatch_of (JArray sent)] ->
  Request_json request' = Returned parsed' ->
  destructure_messages parsed' = ret (JArray sent) ->
  ai_runs (trace (handleChatRequest request' env'))
  = [dispatch_of (JArray sent)].
Proof.
  intros Hfirst Hjson Hd.
  assert (Hin : In (dispatch_of (JArray sent))
                   (ai_runs (trace (handleChatRequest request env))))
    by (rewrite Hfirst; left; reflexivity).
  destruct (ai_runs_handler _ _ _ Hin) as [v [Hv [Heq _]]].
  apply dispatch_of_injective in Heq. subst v.
  assert (Hscan : scan sent = Returned true).
  { destruct (normalized_cases _ Hv)
      as [parsed [ms [_ [_ [[Hs Hms] | [_ Hms]]]]]];
      injection Hms as ->; [exact Hs | apply scan_behind_system_message]. }
  apply ai_runs_normalized.
  rewrite (normalize_array _ Hjson Hd), Hscan. reflexivity.
Qed.

Lemma X6_witness :
  ai_runs (trace (handleChatRequest
                    (Sample.chat
                       (JObject [("messages",
                                  JArray [system_message;
                                          Sample.message "user" "Hi"])]))
                    Sample.env_down))
  = [dispatch_of (JArray [system_message; Sample.message "user" "Hi"])].
Proof.
  apply (@X6_dispatched_messages_are_stable
           (Sample.chat Fixture.hi)
           (Sample.chat
              (JObject [("messages",
                         JArray [system_message;
                                 Sample.message "user" "Hi"])]))
           Sample.env Sample.env_down
           (JObject [("messages",
                      JArray [system_message; Sample.message "user" "Hi"])]));
    reflexivity.
Defined.

(** ** What the handler writes and what it reads *)

(** X7. The handler writes to the console exactly when something in its
    [try] block throws, a statement before the call of the model or the
    call itself: it then writes one line, with the fixed label and the
    error that was thrown, and answers with the error response, which is
    the same whatever that error is.  It never writes more than one
    line, and when nothing throws it writes none and answers with the
    model's response. *)
Theorem X7_failure_logged_once_and_not_exposed
  (request : Request) (env : Env) :
  (forall e,
      try_block_throws request env e
      <-> console_errors (trace (handleChatRequest request env))
          = [("Error processing chat request:", e)])
  /\ (console_errors (trace (handleChatRequest request env)) = []
      \/ exists e,
          console_errors (trace (handleChatRequest request env))
          = [("Error processing chat request:", e)])
  /\ (forall e,
        try_block_throws request env e ->
        result (handleChatRequest request env) = Returned error_response)
  /\ ((forall e, ~ try_block_throws request env e) ->
      console_errors (trace (handleChatRequest request env)) = []
      /\ exists sent response,
          result (parse_and_normalize request) = Returned sent
          /\ Ai_run (AI env) MODEL_ID
               {| messages := sent; max_tokens := 1024 |}
               {| returnRawResponse := true |} = Returned response
          /\ result (handleChatRequest request env) = Returned response).
Proof.
  unfold try_block_throws.
  destruct (handler_cases request env)
    as [[e0 [Hn H]] | [[sent0 [e0 [Hn [Hai H]]]]
                      | [sent0 [response0 [Hn [Hai H]]]]]];
    rewrite H, Hn; cbn [trace result snd fst console_errors flat_map app].
  - split; [| split; [| split]].
    + intros e. split.
      * intros [He | [sent [He _]]]; [| discriminate He].
        injection He as <-. reflexivity.
      * intros He. injection He as <-. left. reflexivity.
    + right. exists e0. reflexivity.
    + intros e _. reflexivity.
    + intros Hnone. destruct (Hnone e0). left. reflexivity.
  - split; [| split; [| split]].
    + intros e. split.
      * intros [He | [sent [He Hthrown]]]; [discriminate He |].
        injection He as <-. rewrite Hai in Hthrown.
        injection Hthrown as <-. reflexivity.
      * intros He. injection He as <-. right. exists sent0. auto.
    + right. exists e0. reflexivity.
    + intros e _. reflexivity.
    + intros Hnone. destruct (Hnone e0). right. exists sent0. auto.
  - split; [| split; [| split]].
    + intros e. split.
      * intros [He | [sent [He Hthrown]]]; [discriminate He |].
        injection He as <-. rewrite Hai in Hthrown. discriminate Hthrown.
      * intros He. discriminate He.
    + left. reflexivity.
    + intros e [He | [sent [He Hthrown]]]; [discriminate He |].
      injection He as <-. rewrite Hai in Hthrown. discriminate Hthrown.
    + intros _. split; [reflexivity |]. exists sent0, response0. auto.
Qed.

Lemma X7_witness :
  console_errors (trace (handleChatRequest (Sample.chat Fixture.hi)
                           Sample.env_down))
  = [("Error processing chat request:", Failure "quota exceeded")]
  /\ result (handleChatRequest (Sample.chat (JObject [("messages", JNull)]))
               Sample.env)
     = Returned error_response.
Proof.
  split.
  - apply (proj1 (proj1 (X7_failure_logged_once_and_not_exposed
                           (Sample.chat Fixture.hi) Sample.env_down)
                    (Failure "quota exceeded"))).
    right. exists (JArray [system_message; Sample.message "user" "Hi"]).
    split; reflexivity.
  - apply (proj1 (proj2 (proj2 (X7_failure_logged_once_and_not_exposed
                                  (Sample.chat (JObject [("messages", JNull)]))
                                  Sample.env)))
             (TypeError "Cannot read properties of null")).
    left. reflexivity.
Defined.

(** X8. Of a request the handler reads the [messages] of the body and
    nothing else: two requests whose bodies agree on [messages] get the
    same response and cause the same effects, whatever their other
    members, their path and their method are. *)
Theorem X8_only_messages_is_read
  (request1 request2 : Request) (env : Env) (parsed1 parsed2 : value) :
  Request_json request1 = Returned parsed1 ->
  Request_json request2 = Returned parsed2 ->
  get parsed1 "messages" = get parsed2 "messages" ->
  handleChatRequest request1 env = handleChatRequest request2 env.
Proof.
  intros H1 H2 Hget.
  assert (Hpn : parse_and_normalize request1 = parse_and_normalize request2).
  { unfold parse_and_normalize, destructure_messages.
    rewrite H1, H2, !bind_await_returned, Hget. reflexivity. }
  unfold handleChatRequest. rewrite Hpn. reflexivity.
Qed.

Lemma X8_witness :
  handleChatRequest (Sample.chat Fixture.hi) Sample.env
  = handleChatRequest
      (Sample.request "/elsewhere" "PUT" (Returned Fixture.hi_with_extras))
      Sample.env.
Proof.
  apply (@X8_only_messages_is_read
           (Sample.chat Fixture.hi)
           (Sample.request "/elsewhere" "PUT" (Returned Fixture.hi_with_extras))
           Sample.env Fixture.hi Fixture.hi_with_extras); reflexivity.
Defined.

(** ** The copy of the worker for the Qwen model *)

(** The two copies normalise alike: both throw the same error, or both
    keep the array, or each puts its own system message in front. *)
Lemma normalize_copies (request : Request) :
  (exists e,
      parse_and_normalize request = throw e
      /\ Qwen.parse_and_normalize request = throw e)
  \/ (exists ms,
        scan ms = Returned true
        /\ parse_and_normalize request = ret (JArray ms)
        /\ Qwen.parse_and_normalize request = ret (JArray ms))
  \/ (exists ms,
        scan ms = Returned false
        /\ parse_and_normalize request = ret (JArray (system_message :: ms))
        /\ Qwen.parse_and_normalize request
           = ret (JArray (Qwen.system_message :: ms))).
Proof.
  unfold parse_and_normalize, Qwen.parse_and_normalize, destructure_messages.
  destruct (Request_json request) as [parsed | e];
    [| left; exists e; split; reflexivity].
  rewrite !bind_await_returned.
  destruct (get parsed "messages") as [x | e];
    [| left; exists e; split; reflexivity].
  rewrite !bind_await_returned, !bind_ret.
  destruct (match x with Some m => m | None => JArray [] end)
    as [| b | n | s | ms | members];
    try (left; eexists; split; reflexivity).
  cbn [Array_some]. rewrite some_from_scan.
  destruct (scan ms) as [[|] | e] eqn:Hscan.
  - right. left. exists ms. split; [exact Hscan | split; reflexivity].
  - right. right. exists ms. split; [exact Hscan | split; reflexivity].
  - left. exists e. split; reflexivity.
Qed.

Lemma Qwen_normalize_array
  (request : Request) (parsed : value) (ms : list value) :
  Request_json request = Returned parsed ->
  destructure_messages parsed = ret (JArray ms) ->
  Qwen.parse_and_normalize request
  = match scan ms with
    | Returned true => ret (JArray ms)
    | Returned false => ret (JArray (Qwen.system_message :: ms))
    | Thrown e => throw e
    end.
Proof.
  intros Hjson Hmsgs. unfold Qwen.parse_and_normalize.
  rewrite Hjson, bind_await_returned, Hmsgs, bind_ret.
  cbn [Array_some]. rewrite some_from_scan.
  destruct (scan ms) as [[|] | e]; reflexivity.
Qed.

Lemma Qwen_handle_normalized (request : Request) (env : Env) (sent : value) :
  Qwen.parse_and_normalize request = ret sent ->
  Qwen.handleChatRequest request env
  = match Ai_run (AI env) Qwen.MODEL_ID
            {| messages := sent; max_tokens := 1024 |}
            {| returnRawResponse := true |} with
    | Returned response =>
        (Returned response,
         [AiRun Qwen.MODEL_ID {| messages := sent; max_tokens := 1024 |}
                {| returnRawResponse := true |}])
    | Thrown e =>
        (Returned error_response,
         [AiRun Qwen.MODEL_ID {| messages := sent; max_tokens := 1024 |}
                {| returnRawResponse := true |};
          ConsoleError error_label e])
    end.
Proof.
  intros H. unfold Qwen.handleChatRequest. rewrite H, bind_ret.
  unfold AI_run, bind, try_catch, ret, console_error, error_label.
  destruct (Ai_run _ _ _ _); reflexivity.
Qed.

Lemma Qwen_handle_failed (request : Request) (env : Env) (e : error) :
  Qwen.parse_and_normalize request = throw e ->
  Qwen.handleChatRequest request env
  = (Returned error_response, [ConsoleError error_label e]).
Proof.
  intros H. unfold Qwen.handleChatRequest. rewrite H. reflexivity.
Qed.

Lemma Qwen_ai_runs_normalized (request : Request) (env : Env) (sent : value) :
  Qwen.parse_and_normalize request = ret sent ->
  ai_runs (trace (Qwen.handleChatRequest request env))
  = [Qwen.dispatch_of sent].
Proof.
  intros H. rewrite (Qwen_handle_normalized _ env H).
  destruct (Ai_run _ _ _ _); reflexivity.
Qed.

(** X9. Whenever the worker of [src/index.ts] serves a request without
    calling the model (an asset path, the 405 and 404 answers, a body
    that fails before dispatch), the copy for the Qwen model serves it
    with the same response and the same effects. *)
Theorem X9_copies_agree_without_model_call
  (request : Request) (env : Env) (ctx : ExecutionContext) :
  ai_runs (trace (fetch request env ctx)) = [] ->
  Qwen.fetch request env ctx = fetch request env ctx.
Proof.
  unfold Qwen.fetch, fetch. cbv zeta.
  destruct (String.eqb (pathname (Request_url request)) "/"
            || negb (startsWith (pathname (Request_url request)) "/api/"))%bool;
    [reflexivity |].
  destruct (String.eqb (pathname (Request_url request)) "/api/chat");
    [| reflexivity].
  destruct (String.eqb (Request_method request) "POST"); [| reflexivity].
  intros Hnone.
  destruct (normalize_copies request)
    as [[e [Hi Hq]] | [[ms [_ [Hi _]]] | [ms [_ [Hi _]]]]].
  - rewrite (Qwen_handle_failed _ env Hq).
    symmetry. apply handle_failed. rewrite Hi. reflexivity.
  - rewrite (@ai_runs_normalized request env (JArray ms)) in Hnone;
      [discriminate Hnone | rewrite Hi; reflexivity].
  - rewrite (@ai_runs_normalized request env (JArray (system_message :: ms)))
      in Hnone; [discriminate Hnone | rewrite Hi; reflexivity].
Qed.

Lemma X9_witness :
  Qwen.fetch (Sample.chat (JObject [("messages", JArray [JNull])]))
    Sample.env execution_context
  = fetch (Sample.chat (JObject [("messages", JArray [JNull])]))
      Sample.env execution_context.
Proof.
  apply (@X9_copies_agree_without_model_call
           (Sample.chat (JObject [("messages", JArray [JNull])]))
           Sample.env execution_context).
  reflexivity.
Defined.

(** X10. In the copy for the Qwen model, for a messages array without a
    [null] element: when an element has role system the model is called
    once with the array as it is, and when none has it is called once
    with the copy's own system message in front of the array; either
    way with the copy's model identifier, [max_tokens] 1024 and
    [returnRawResponse] true. *)
Theorem X10_copy_injects_its_own_prompt
  (request : Request) (env : Env) (parsed : value) (ms : list value) :
  Request_json request = Returned parsed ->
  destructure_messages parsed = ret (JArray ms) ->
  forallb not_null ms = true ->
  ((exists m, In m ms /\ role_is m "system") ->
   ai_runs (trace (Qwen.handleChatRequest request env))
   = [("@cf/qwen/qwen1.5-14b-chat-awq",
       {| messages := JArray ms; max_tokens := 1024 |},
       {| returnRawResponse := true |})])
  /\ ((forall m, In m ms -> ~ role_is m "system") ->
      ai_runs (trace (Qwen.handleChatRequest request env))
      = [("@cf/qwen/qwen1.5-14b-chat-awq",
          {| messages :=
               JArray (JObject [("role", JString "system");
                                ("content", JString Qwen.SYSTEM_PROMPT)]
                       :: ms);
             max_tokens := 1024 |},
          {| returnRawResponse := true |})]).
Proof.
  intros Hjson Hd Hnn.
  pose proof (Qwen_normalize_array _ Hjson Hd) as Hq.
  rewrite (scan_not_null _ Hnn) in Hq.
  split.
  - intros [m [Hin Hm]].
    replace (existsb has_role_system ms) with true in Hq.
    + exact (Qwen_ai_runs_normalized _ env Hq).
    + symmetry. apply existsb_exists. exists m. split; [exact Hin |].
      apply has_role_system_iff. exact Hm.
  - intros Hnone.
    replace (existsb has_role_system ms) with false in Hq.
    + exact (Qwen_ai_runs_normalized _ env Hq).
    + symmetry. destruct (existsb has_role_system ms) eqn:E; [| reflexivity].
      apply existsb_exists in E. destruct E as [m [Hin Hm]].
      apply has_role_system_iff in Hm. destruct (Hnone m Hin Hm).
Qed.

Lemma X10_witness :
  ai_runs (trace (Qwen.handleChatRequest (Sample.chat Fixture.hi) Sample.env))
  = [("@cf/qwen/qwen1.5-14b-chat-awq",
      {| messages :=
           JArray [JObject [("role", JString "system");
                            ("content", JString Qwen.SYSTEM_PROMPT)];
                   Sample.message "user" "Hi"];
         max_tokens := 1024 |},
      {| returnRawResponse := true |})]
  /\ ai_runs (trace (Qwen.handleChatRequest
                       (Sample.chat Fixture.briefed) Sample.env))
     = [("@cf/qwen/qwen1.5-14b-chat-awq",
         {| messages := JArray [Sample.message "system" "X";
                                Sample.message "user" "Hi"];
            max_tokens := 1024 |},
         {| returnRawResponse := true |})].
Proof.
  split.
  - apply (proj2 (@X10_copy_injects_its_own_prompt
                    (Sample.chat Fixture.hi) Sample.env Fixture.hi
                    [Sample.message "user" "Hi"]
                    eq_refl eq_refl eq_refl)).
    intros m [<- | []] H. discriminate H.
  - apply (proj1 (@X10_copy_injects_its_own_prompt
                    (Sample.chat Fixture.briefed) Sample.env Fixture.briefed
                    [Sample.message "system" "X"; Sample.message "user" "Hi"]
                    eq_refl eq_refl eq_refl)).
    exists (Sample.message "system" "X"). split; [left |]; reflexivity.
Defined.

(** X11. The handler of the copy never throws: it answers with the
    uniform error response, or with the response of the one call it made
    to the model under the copy's model identifier. *)
Theorem X11_copy_handler_never_throws (request : Request) (env : Env) :
  exists response,
    result (Qwen.handleChatRequest request env) = Returned response
    /\ (response = error_response
        \/ exists sent,
            Ai_run (AI env) "@cf/qwen/qwen1.5-14b-chat-awq"
              {| messages := sent; max_tokens := 1024 |}
              {| returnRawResponse := true |} = Returned response
            /\ ai_runs (trace (Qwen.handleChatRequest request env))
               = [Qwen.dispatch_of sent]).
Proof.
  destruct (normalize_copies request)
    as [[e [_ Hq]] | [[ms [_ [_ Hq]]] | [ms [_ [_ Hq]]]]].
  - rewrite (Qwen_handle_failed _ env Hq).
    exists error_response. split; [reflexivity | left; reflexivity].
  - rewrite (Qwen_handle_normalized _ env Hq).
    destruct (Ai_run (AI env) Qwen.MODEL_ID _ _) as [response | e] eqn:Hai.
    + exists response. split; [reflexivity |]. right.
      exists (JArray ms). split; [exact Hai | reflexivity].
    + exists error_response. split; [reflexivity | left; reflexivity].
  - rewrite (Qwen_handle_normalized _ env Hq).
    destruct (Ai_run (AI env) Qwen.MODEL_ID _ _) as [response | e] eqn:Hai.
    + exists response. split; [reflexivity |]. right.
      exists (JArray (Qwen.system_message :: ms)).
      split; [exact Hai | reflexivity].
    + exists error_response. split; [reflexivity | left; reflexivity].
Qed.
